(** * Warden compliance dashboard: data model, fixtures and list views

    A shallow embedding of the TypeScript front end of the Warden compliance
    audit platform: the domain types of [types/compliance.ts], the fixture
    data of [data/mockData.ts], and the list computations of the pages that
    consume them ([pages/Violations.tsx], [pages/Index.tsx],
    [pages/Reports.tsx]) together with the risk widget of
    [components/dashboard/RiskIndicator.tsx].

    JavaScript arrays are lists, [Array.prototype.filter] with a boolean
    callback is [List.filter], string-literal union types are inductive types
    together with the literal each value stands for, and [===] between two
    such values is equality of their literals. *)

From Stdlib Require Import String Ascii List Bool Arith Lia QArith Lqa.
From stdpp Require Import base list.
Import ListNotations.

(** ** types/compliance.ts *)

Module Compliance.
Local Open Scope string_scope.

(** [type Severity = "critical" | "high" | "medium" | "low"] *)
Inductive Severity : Set := critical | high | medium | low.

(** [type ViolationStatus = "open" | "needs_review" | "resolved" | "dismissed"] *)
Inductive ViolationStatus : Set := open | needs_review | resolved | dismissed.

(** [type AuditStatus = "completed" | "in_progress" | "pending" | "failed"] *)
Inductive AuditStatus : Set := completed | in_progress | pending | failed.

(** [type RiskLevel = "critical" | "high" | "medium" | "low" | "minimal"] *)
Inductive RiskLevel : Set :=
  risk_critical | risk_high | risk_medium | risk_low | risk_minimal.

(** The string each value of a union type is at run time. *)
Definition Severity_lit (s : Severity) : string :=
  match s with
  | critical => "critical"
  | high => "high"
  | medium => "medium"
  | low => "low"
  end.

Definition ViolationStatus_lit (s : ViolationStatus) : string :=
  match s with
  | open => "open"
  | needs_review => "needs_review"
  | resolved => "resolved"
  | dismissed => "dismissed"
  end.

Definition RiskLevel_lit (r : RiskLevel) : string :=
  match r with
  | risk_critical => "critical"
  | risk_high => "high"
  | risk_medium => "medium"
  | risk_low => "low"
  | risk_minimal => "minimal"
  end.

(** The optional [reflection] block of a [Violation]. *)
Record Reflection : Set := {
  initialFinding : string;
  reflectionNotes : string;
  finalDecision : string
}.

(** [interface Violation] *)
Record Violation : Set := {
  id : string;
  ruleId : string;
  title : string;
  description : string;
  severity : Severity;
  status : ViolationStatus;
  evidence : string;
  reasoning : string;
  remediation : string;
  confidence : nat;
  category : string;
  detectedAt : string;
  reflection : option Reflection
}.

(** [interface ComplianceMetrics] *)
Record ComplianceMetrics : Set := {
  complianceScore : nat;
  criticalIssues : nat;
  moderateIssues : nat;
  missingArtifacts : nat;
  totalViolations : nat;
  riskLevel : RiskLevel
}.

(** [interface AuditInfo]; its field [status] is [audit_status] here, the name
    [status] being the projection of [Violation]. *)
Record AuditInfo : Set := {
  audit_status : AuditStatus;
  lastRun : string;
  duration : string;
  rulesEvaluated : nat;
  artifactsScanned : nat
}.

End Compliance.

(** ** data/mockData.ts *)

Module MockData.
Import Compliance.
Local Open Scope string_scope.

(** The double quote and the line feed, for the literals that contain them
    (['"..."'] and ["\n"] in the source). *)
Definition dq : string := String (ascii_of_nat 34) EmptyString.
Definition nl : string := String (ascii_of_nat 10) EmptyString.

Definition mockMetrics : ComplianceMetrics :=
  {| complianceScore := 78;
     criticalIssues := 3;
     moderateIssues := 8;
     missingArtifacts := 2;
     totalViolations := 13;
     riskLevel := risk_medium |}.

Definition mockAuditInfo : AuditInfo :=
  {| audit_status := completed;
     lastRun := "2024-01-15T14:32:00Z";
     duration := "4m 23s";
     rulesEvaluated := 156;
     artifactsScanned := 42 |}.

Definition v_001 : Violation :=
  {| id := "v-001";
     ruleId := "SEC-007";
     title := "Missing encryption at rest for sensitive data storage";
     description :=
      "The application stores sensitive user data without implementing encryption at rest, violating data protection requirements.";
     severity := critical;
     status := open;
     evidence :=
      String.concat dq [EmptyString; "userData is stored in plaintext format in the local database without any encryption mechanism applied."; " - Found in database.config.ts, line 47"];
     reasoning :=
      "The agent identified that the database configuration explicitly disables encryption (encryption: false) for the user_data collection. This configuration combined with the storage of PII fields (email, phone, address) creates a critical compliance gap.";
     remediation :=
      String.concat nl
      ["1. Enable AES-256 encryption for the user_data collection";
       "2. Implement key rotation policy";
       "3. Update database.config.ts to set encryption: true";
       "4. Audit existing data and re-encrypt if necessary"];
     confidence := 94;
     category := "Data Protection";
     detectedAt := "2024-01-15T14:28:00Z";
     reflection := Some
      {| initialFinding :=
          "Detected unencrypted storage configuration for user data collection.";
         reflectionNotes :=
          "Cross-referenced with compliance rule SEC-007 which mandates encryption at rest for all PII. Verified that the stored fields (email, phone, address) qualify as PII under GDPR and CCPA definitions.";
         finalDecision :=
          "Confirmed as Critical violation. Unencrypted PII storage poses significant regulatory and security risk." |} |}.

Definition v_002 : Violation :=
  {| id := "v-002";
     ruleId := "AUTH-012";
     title := "Inadequate session timeout configuration";
     description :=
      "User sessions remain active indefinitely without automatic timeout, creating security vulnerabilities.";
     severity := high;
     status := needs_review;
     evidence :=
      String.concat dq [EmptyString; "sessionTimeout: -1"; " found in auth.config.js - indicates sessions never expire automatically."];
     reasoning :=
      "The authentication configuration sets session timeout to -1, which disables automatic session expiration. This violates security best practices and compliance requirements for session management.";
     remediation :=
      String.concat nl
      ["1. Set sessionTimeout to 30 minutes (1800000ms) for standard users";
       "2. Implement idle timeout of 15 minutes";
       "3. Add session refresh mechanism for active users"];
     confidence := 98;
     category := "Authentication";
     detectedAt := "2024-01-15T14:25:00Z";
     reflection := None |}.

Definition v_003 : Violation :=
  {| id := "v-003";
     ruleId := "LOG-003";
     title := "Insufficient audit logging for administrative actions";
     description :=
      "Administrative actions are not being logged with required detail level for compliance audit trails.";
     severity := high;
     status := open;
     evidence :=
      "Admin controller functions lack @AuditLog decorators. Only 3 of 12 admin endpoints have logging enabled.";
     reasoning :=
      "The agent scanned all admin controller files and found that audit logging decorators are inconsistently applied. Critical operations like user deletion and permission changes have no audit trail.";
     remediation :=
      String.concat nl
      ["1. Add @AuditLog decorator to all admin controller methods";
       "2. Include user context, timestamp, and action details";
       "3. Ensure logs are written to immutable storage"];
     confidence := 91;
     category := "Audit Logging";
     detectedAt := "2024-01-15T14:26:00Z";
     reflection := None |}.

Definition v_004 : Violation :=
  {| id := "v-004";
     ruleId := "SEC-015";
     title := "API keys exposed in client-side code";
     description :=
      "Sensitive API keys are bundled into the client-side JavaScript, making them accessible to end users.";
     severity := critical;
     status := open;
     evidence :=
      "STRIPE_SECRET_KEY found in bundle.js after build process. Variable referenced in payment.service.ts line 23.";
     reasoning :=
      "Build analysis revealed that environment variables prefixed with NEXT_PUBLIC_ include a secret key that should remain server-side only. This exposes the payment provider credentials.";
     remediation :=
      String.concat nl
      ["1. Move STRIPE_SECRET_KEY to server-side only environment";
       "2. Create API route for payment processing";
       "3. Audit all NEXT_PUBLIC_ variables for sensitive data";
       "4. Rotate compromised API keys immediately"];
     confidence := 99;
     category := "Secrets Management";
     detectedAt := "2024-01-15T14:24:00Z";
     reflection := None |}.

Definition v_005 : Violation :=
  {| id := "v-005";
     ruleId := "DOC-001";
     title := "Missing security architecture documentation";
     description :=
      "Required security architecture documentation is not present in the repository.";
     severity := medium;
     status := needs_review;
     evidence :=
      "Expected file docs/security-architecture.md not found. No alternative documentation detected in /docs or /security folders.";
     reasoning :=
      "Compliance requirements mandate documented security architecture including data flow diagrams, encryption specifications, and access control matrix. None of these artifacts were found.";
     remediation :=
      String.concat nl
      ["1. Create docs/security-architecture.md";
       "2. Include data flow diagrams";
       "3. Document encryption standards in use";
       "4. Add access control matrix for all user roles"];
     confidence := 100;
     category := "Documentation";
     detectedAt := "2024-01-15T14:30:00Z";
     reflection := None |}.

Definition v_006 : Violation :=
  {| id := "v-006";
     ruleId := "DEP-008";
     title := "Outdated dependency with known vulnerability";
     description :=
      "The lodash package version 4.17.15 has a known prototype pollution vulnerability (CVE-2020-8203).";
     severity := medium;
     status := open;
     evidence :=
      String.concat dq ["package.json specifies "; "lodash"; ": "; "4.17.15"; ". Known vulnerable to CVE-2020-8203 (CVSS 7.4)."];
     reasoning :=
      "Dependency analysis identified lodash at version 4.17.15 which is affected by a high-severity prototype pollution vulnerability. The current version is significantly behind the patched release.";
     remediation :=
      String.concat nl
      ["1. Update lodash to version 4.17.21 or later";
       "2. Run npm audit to verify fix";
       "3. Test application functionality after update"];
     confidence := 100;
     category := "Dependencies";
     detectedAt := "2024-01-15T14:29:00Z";
     reflection := None |}.

Definition v_007 : Violation :=
  {| id := "v-007";
     ruleId := "ACC-002";
     title := "Missing role-based access control on API endpoints";
     description :=
      "Several API endpoints lack proper RBAC implementation, allowing unauthorized access to protected resources.";
     severity := high;
     status := open;
     evidence :=
      "/api/admin/users endpoint accessible without admin role check. Middleware chain missing @RequireRole decorator.";
     reasoning :=
      "Analysis of route handlers revealed that admin-prefixed routes do not consistently enforce role requirements. The /users endpoint can be accessed by any authenticated user.";
     remediation :=
      String.concat nl
      [String.concat dq ["1. Add @RequireRole("; "admin"; ") decorator to all /api/admin/* routes"];
       "2. Implement middleware to validate roles before handler execution";
       "3. Add integration tests for role enforcement"];
     confidence := 96;
     category := "Access Control";
     detectedAt := "2024-01-15T14:27:00Z";
     reflection := None |}.

Definition v_008 : Violation :=
  {| id := "v-008";
     ruleId := "PRIV-004";
     title := "Privacy policy link missing from registration flow";
     description :=
      "User registration does not include required privacy policy acknowledgment.";
     severity := low;
     status := resolved;
     evidence :=
      "Registration form component (RegisterForm.tsx) lacks privacy policy checkbox or link.";
     reasoning :=
      "GDPR and CCPA require explicit user consent and acknowledgment of privacy policy during data collection. The registration form collects PII without this required disclosure.";
     remediation :=
      String.concat nl
      ["1. Add privacy policy link to registration form";
       "2. Implement checkbox for explicit consent";
       "3. Store consent timestamp in user record"];
     confidence := 100;
     category := "Privacy";
     detectedAt := "2024-01-15T14:31:00Z";
     reflection := None |}.

Definition mockViolations : list Violation :=
  [v_001; v_002; v_003; v_004; v_005; v_006; v_007; v_008].

End MockData.

(** ** components/dashboard/RiskIndicator.tsx *)

Module RiskIndicator.
Import Compliance.
Local Open Scope string_scope.

(** The text part of one entry of [riskConfig]: its [label] and its
    [description] (here [risk_description]). *)
Record RiskText : Set := { label : string; risk_description : string }.

(** [riskConfig[level]]: the widget looks its wording up by the level. *)
Definition riskConfig (level : RiskLevel) : RiskText :=
  match level with
  | risk_critical =>
      {| label := "Critical Risk"; risk_description := "Immediate action required" |}
  | risk_high =>
      {| label := "High Risk"; risk_description := "Action needed soon" |}
  | risk_medium =>
      {| label := "Medium Risk"; risk_description := "Review recommended" |}
  | risk_low =>
      {| label := "Low Risk"; risk_description := "Minor improvements possible" |}
  | risk_minimal =>
      {| label := "Minimal Risk"; risk_description := "Excellent compliance posture" |}
  end.

End RiskIndicator.

(** ** pages/Violations.tsx *)

Module ViolationsPage.
Import Compliance.
Local Open Scope string_scope.

(** [type FilterType = "all" | Severity | ViolationStatus]: the union of nine
    pairwise different string literals. *)
Inductive FilterType : Set :=
  | filter_all
  | filter_severity (s : Severity)
  | filter_status (s : ViolationStatus).

Definition FilterType_lit (f : FilterType) : string :=
  match f with
  | filter_all => "all"
  | filter_severity s => Severity_lit s
  | filter_status s => ViolationStatus_lit s
  end.

(** The filter buttons, as [{ value, label }] pairs. *)
Definition filters : list (FilterType * string) :=
  [ (filter_all, "All");
    (filter_severity critical, "Critical");
    (filter_severity high, "High");
    (filter_severity medium, "Medium");
    (filter_severity low, "Low");
    (filter_status open, "Open");
    (filter_status needs_review, "Needs Review");
    (filter_status resolved, "Resolved") ].

(** The callback of [mockViolations.filter((v) => { ... })]:
    [if (activeFilter === "all") return true;
     return v.severity === activeFilter || v.status === activeFilter;] *)
Definition matchesFilter (activeFilter : FilterType) (v : Violation) : bool :=
  if FilterType_lit activeFilter =? "all" then true
  else (Severity_lit (severity v) =? FilterType_lit activeFilter)
       || (ViolationStatus_lit (status v) =? FilterType_lit activeFilter).

(** [filteredViolations], for the state [activeFilter] and the array the
    page filters (the page passes [mockViolations]). *)
Definition filteredViolations (activeFilter : FilterType)
    (violations : list Violation) : list Violation :=
  List.filter (matchesFilter activeFilter) violations.

(** The summary badges:
    [mockViolations.filter((v) => v.severity === "critical").length] and its
    three siblings. *)
Definition severityBadge (s : Severity) (violations : list Violation) : nat :=
  length (List.filter (fun v => Severity_lit (severity v) =? Severity_lit s) violations).

End ViolationsPage.

(** ** pages/Index.tsx *)

Module IndexPage.
Import Compliance.
Local Open Scope string_scope.

(** The callback [(v) => v.status === "open" || v.status === "needs_review"]. *)
Definition isActive (v : Violation) : bool :=
  (ViolationStatus_lit (status v) =? "open")
  || (ViolationStatus_lit (status v) =? "needs_review").

(** [activeViolations]: "Filter to show only open/needs_review violations". *)
Definition activeViolations (violations : list Violation) : list Violation :=
  List.filter isActive violations.

(** What the dashboard shows: the four metric cards, the score and risk
    widgets, the "issues requiring attention" counter and the table rows. *)
Record IndexView : Set := {
  criticalCard : nat;
  moderateCard : nat;
  missingCard : nat;
  totalCard : nat;
  scoreWidget : nat;
  riskWidget : RiskLevel;
  attentionCount : nat;
  tableRows : list Violation
}.

(** The component [Index], as a function of the two values it imports from
    [data/mockData.ts]: the cards and widgets read the metrics record, the
    counter and the table read the filtered array. *)
Definition Index (metrics : ComplianceMetrics) (violations : list Violation)
    : IndexView :=
  {| criticalCard := criticalIssues metrics;
     moderateCard := moderateIssues metrics;
     missingCard := missingArtifacts metrics;
     totalCard := totalViolations metrics;
     scoreWidget := complianceScore metrics;
     riskWidget := riskLevel metrics;
     attentionCount := length (activeViolations violations);
     tableRows := activeViolations violations |}.

End IndexPage.

(** ** pages/Reports.tsx *)

Module ReportsPage.
Import Compliance.
Local Open Scope string_scope.

(** [mockViolations.filter((v) => v.severity === "critical")] *)
Definition criticalViolations (violations : list Violation) : list Violation :=
  List.filter (fun v => Severity_lit (severity v) =? "critical") violations.

(** [mockViolations.filter((v) => v.severity === "high")] *)
Definition highViolations (violations : list Violation) : list Violation :=
  List.filter (fun v => Severity_lit (severity v) =? "high") violations.

(** [mockViolations.filter(
      (v) => v.severity !== "critical" && v.severity !== "high")] *)
Definition otherViolations (violations : list Violation) : list Violation :=
  List.filter
    (fun v => negb (Severity_lit (severity v) =? "critical")
              && negb (Severity_lit (severity v) =? "high"))
    violations.

(** The risk level the executive summary names: a literal of the page
    ("The overall risk level is assessed as Medium, primarily due to
    [mockMetrics.criticalIssues] critical findings ..."). *)
Definition summaryRisk : string := "Medium".

End ReportsPage.

(** ** The review lifecycle *)

Module Lifecycle.
Import Compliance.
Local Open Scope string_scope.

(** Modelled from the spec: the two errors of the Lifecycle State Machine
    (its section 4.3 and error taxonomy). The front end declares
    [ViolationStatus] and never changes a status, so the state machine
    itself is missing from the sources. *)
Inductive TransitionError : Set := IllegalTransition | MissingJustification.

(** Modelled from the spec: the transition table "open -> needs_review;
    open -> resolved, needs_review -> resolved; open -> dismissed,
    needs_review -> dismissed", every other pair being rejected. *)
Definition legalTransition (from target : ViolationStatus) : bool :=
  match from, target with
  | open, needs_review => true
  | open, resolved | needs_review, resolved => true
  | open, dismissed | needs_review, dismissed => true
  | _, _ => false
  end.

(** Modelled from the spec: the check made before a status changes. A pair
    outside the table is an [IllegalTransition]; a dismissal, once legal,
    needs a non-empty reason. *)
Definition checkTransition (from target : ViolationStatus)
    (justification : option string) : option TransitionError :=
  if negb (legalTransition from target) then Some IllegalTransition
  else match target, justification with
       | dismissed, None => Some MissingJustification
       | dismissed, Some EmptyString => Some MissingJustification
       | _, _ => None
       end.

(** Modelled from the spec: the only field a transition writes. *)
Definition setStatus (v : Violation) (s : ViolationStatus) : Violation :=
  {| id := id v; ruleId := ruleId v; title := title v;
     description := description v; severity := severity v; status := s;
     evidence := evidence v; reasoning := reasoning v;
     remediation := remediation v; confidence := confidence v;
     category := category v; detectedAt := detectedAt v;
     reflection := reflection v |}.

(** Modelled from the spec: a review action [{ targetStatus, justification? }]
    applied to one record. The result is the record as it is afterwards and
    the error, if the action was rejected ("reject, no partial mutation"). *)
Definition transition (v : Violation) (target : ViolationStatus)
    (justification : option string) : Violation * option TransitionError :=
  match checkTransition (status v) target justification with
  | Some e => (v, Some e)
  | None => (setStatus v target, None)
  end.

End Lifecycle.

(** ** The quantities the metrics are compared with *)

Module Aggregates.
Import Compliance IndexPage.
Local Open Scope string_scope.

(** [v.severity === "critical"], the test of the Reports page and of the
    Violations page's badge. *)
Definition isCritical (v : Violation) : bool :=
  Severity_lit (severity v) =? "critical".

(** [v.severity === "medium"], the test of the Violations page's badge. *)
Definition isMedium (v : Violation) : bool :=
  Severity_lit (severity v) =? "medium".

(** The category is exactly the string "Documentation". *)
Definition isDocumentation (v : Violation) : bool :=
  category v =? "Documentation".

(** The records of a list that pass a test and are active (status [open] or
    [needs_review], the dashboard's [isActive]). *)
Definition activeWhere (p : Violation -> bool) (violations : list Violation)
    : list Violation :=
  List.filter (fun v => p v && isActive v) violations.

(** A risk level that is at least "high": "high" or "critical". *)
Definition atLeastHigh (r : RiskLevel) : Prop :=
  r = risk_high \/ r = risk_critical.

End Aggregates.

(** ** components/violations/ViolationsTable.tsx *)

Module ViolationsTable.
Import Compliance.
Local Open Scope string_scope.

(** [expandedId === id], for the state [expandedId : string | null]. *)
Definition isExpandedId (expandedId : option string) (id : string) : bool :=
  match expandedId with
  | Some e => e =? id
  | None => false
  end.

(** [handleToggle]: [setExpandedId(expandedId === id ? null : id)]; the
    value is the next state. The initial state is [null]. *)
Definition handleToggle (expandedId : option string) (id : string)
    : option string :=
  if isExpandedId expandedId id then None else Some id.

(** The props of one [ViolationRow]; [onToggle] is [handleToggle] at the
    row's id. *)
Record RowProps : Set := {
  key : string;
  violation : Violation;
  isExpanded : bool
}.

(** [violations.map((violation) => <ViolationRow ... />)] *)
Definition rows (expandedId : option string) (violations : list Violation)
    : list RowProps :=
  map (fun v => {| key := Compliance.id v;
                   violation := v;
                   isExpanded := isExpandedId expandedId (Compliance.id v) |})
      violations.

End ViolationsTable.

(** ** components/dashboard/ComplianceScore.tsx *)

Module ComplianceScore.
Local Open Scope string_scope.

(** The score is a JavaScript number; here it ranges over the rationals,
    which hold every finite one, and [score >= c] is [Qle_bool c score]. *)

Definition getScoreColor (score : Q) : string :=
  if Qle_bool 90 score then "text-success"
  else if Qle_bool 70 score then "text-warning"
  else "text-severity-critical".

Definition getScoreRingColor (score : Q) : string :=
  if Qle_bool 90 score then "stroke-success"
  else if Qle_bool 70 score then "stroke-warning"
  else "stroke-severity-critical".

Definition getScoreLabel (score : Q) : string :=
  if Qle_bool 90 score then "Excellent"
  else if Qle_bool 80 score then "Good"
  else if Qle_bool 70 score then "Fair"
  else if Qle_bool 60 score then "Needs Attention"
  else "Critical".

End ComplianceScore.

(** ** components/layout/Sidebar.tsx *)

Module Sidebar.
Local Open Scope string_scope.

(** One entry of [navigation] (its icon left out). *)
Record NavItem : Set := { name : string; href : string }.

Definition navigation : list NavItem :=
  [ {| name := "Dashboard"; href := "/dashboard" |};
    {| name := "Audits"; href := "/audits" |};
    {| name := "Violations"; href := "/violations" |};
    {| name := "Reports"; href := "/reports" |};
    {| name := "Settings"; href := "/settings" |};
    {| name := "Home"; href := "/" |} ].

(** [const isActive = location.pathname === item.href] *)
Definition isActive (pathname : string) (item : NavItem) : bool :=
  pathname =? href item.

End Sidebar.

(** ** AuditPopup.tsx (a component under components/) *)

Module AuditPopup.
Local Open Scope string_scope.

(** The one property of a browser [File] the component reads. *)
Record File : Set := { name : string }.

(** The three [useState] cells: [open] (here [dialogOpen]), [selectedFile]
    and [fileType]. *)
Record PopupState : Set := {
  dialogOpen : bool;
  selectedFile : option File;
  fileType : string
}.

(** [useState(false)], [useState(null)], [useState("")] *)
Definition initialState : PopupState :=
  {| dialogOpen := false; selectedFile := None; fileType := "" |}.

(** A call of [toast.error] or [toast.success]: its title and description. *)
Inductive Toast : Set :=
  | toast_error (title description : string)
  | toast_success (title description : string).

(** [handleFileChange]: [const file = e.target.files?.[0];
    if (file) setSelectedFile(file);], for the input's file list
    ([null] or a list). *)
Definition handleFileChange (files : option (list File)) (s : PopupState)
    : PopupState :=
  match files with
  | Some (file :: _) =>
      {| dialogOpen := dialogOpen s; selectedFile := Some file;
         fileType := fileType s |}
  | _ => s
  end.

(** [setFileType], the select's [onValueChange]. *)
Definition setFileType (value : string) (s : PopupState) : PopupState :=
  {| dialogOpen := dialogOpen s; selectedFile := selectedFile s;
     fileType := value |}.

(** [handleSubmit]: the state afterwards and the toast it shows. *)
Definition handleSubmit (s : PopupState) : PopupState * Toast :=
  match selectedFile s with
  | None =>
      (s, toast_error "No file selected"
                      "Please upload a file before submitting.")
  | Some file =>
      if fileType s =? "" then
        (s, toast_error "No file type selected" "Please select a file type.")
      else
        ({| dialogOpen := false; selectedFile := None; fileType := "" |},
         toast_success "Submitted successfully!"
           (String.concat "" ["File: "; name file; ", Type: "; fileType s]))
  end.

(** [handleOpenChange]: [setOpen(isOpen)], and the form is cleared on
    closing. *)
Definition handleOpenChange (isOpen : bool) (s : PopupState) : PopupState :=
  if negb isOpen then
    {| dialogOpen := isOpen; selectedFile := None; fileType := "" |}
  else
    {| dialogOpen := isOpen; selectedFile := selectedFile s;
       fileType := fileType s |}.

(** What the user can do to the component, and the state each event leaves. *)
Inductive Event : Set :=
  | FileChange (files : option (list File))
  | TypeChange (value : string)
  | Submit
  | OpenChange (isOpen : bool).

Definition step (s : PopupState) (e : Event) : PopupState :=
  match e with
  | FileChange files => handleFileChange files s
  | TypeChange value => setFileType value s
  | Submit => fst (handleSubmit s)
  | OpenChange isOpen => handleOpenChange isOpen s
  end.

(** The file input and the select are children of the dialog's content:
    a run in which they fire only while the dialog is open. *)
Fixpoint inputsWhileOpen (s : PopupState) (events : list Event) : Prop :=
  match events with
  | [] => True
  | e :: rest =>
      match e with
      | FileChange _ | TypeChange _ => dialogOpen s = true
      | _ => True
      end
      /\ inputsWhileOpen (step s e) rest
  end.

End AuditPopup.

(** ** pages/Landing.tsx *)

Module Landing.
Local Open Scope string_scope.

(** [s.split(" ")]: the pieces of [s] between its spaces; never empty. *)
Fixpoint split_space (s : string) : list string :=
  match s with
  | EmptyString => [EmptyString]
  | String c rest =>
      if Ascii.eqb c " " then EmptyString :: split_space rest
      else match split_space rest with
           | piece :: pieces => String c piece :: pieces
           | [] => [String c EmptyString]
           end
  end.

(** [n[0]], which [join] prints as nothing when [n] is empty. *)
Definition firstChar (n : string) : string :=
  match n with
  | EmptyString => EmptyString
  | String c _ => String c EmptyString
  end.

(** [testimonial.author.split(" ").map((n) => n[0]).join("")], for names
    of one-byte characters. *)
Definition initials (author : string) : string :=
  String.concat "" (map firstChar (split_space author)).

(** The authors of the three testimonials. *)
Definition testimonialAuthors : list string :=
  ["Sarah Chen"; "Michael Torres"; "Emily Watson"].

End Landing.

(** ** pages/Reports.tsx: which sections are rendered *)

Module ReportsSections.
Import Compliance ReportsPage.

(** [criticalViolations.length > 0 && (...)] and its two siblings. *)
Definition showCritical (violations : list Violation) : bool :=
  0 <? length (criticalViolations violations).

Definition showHigh (violations : list Violation) : bool :=
  0 <? length (highViolations violations).

Definition showOther (violations : list Violation) : bool :=
  0 <? length (otherViolations violations).

End ReportsSections.

(** * Properties *)

Import Compliance MockData RiskIndicator ViolationsPage IndexPage ReportsPage.
Import Lifecycle Aggregates.

(** ** [Array.prototype.filter] *)

Section ArrayFilter.
Context {A : Type}.
Implicit Types (f : A -> bool) (l k : list A).

(** Filtering only drops elements: what is left is a sub-sequence. *)
Lemma Array_filter_sublist f l : List.filter f l `sublist_of` l.
Proof.
  induction l as [|x l IH]; simpl.
  - constructor.
  - destruct (f x); [apply sublist_skip | apply sublist_cons]; exact IH.
Qed.

Lemma Array_filter_elem_of f l x : x ∈ List.filter f l <-> x ∈ l /\ f x = true.
Proof. rewrite !list_elem_of_In. apply filter_In. Qed.

(** Every sub-sequence made of accepted elements survives the filter. *)
Lemma Array_filter_greatest f l k :
  k `sublist_of` l -> Forall (fun x => f x = true) k ->
  k `sublist_of` List.filter f l.
Proof.
  induction 1 as [|x k l Hkl IH|x k l Hkl IH]; intros Hall; simpl.
  - constructor.
  - inversion Hall as [|? ? Hx Hk]; subst. rewrite Hx.
    apply sublist_skip, IH, Hk.
  - destruct (f x); [apply sublist_cons|]; apply IH, Hall.
Qed.

Lemma Array_filter_id f l : (forall x, f x = true) -> List.filter f l = l.
Proof.
  intros Hf. induction l as [|x l IH]; simpl; [reflexivity|].
  rewrite Hf, IH. reflexivity.
Qed.

(** A filter whose callback decides [P] returns the sub-sequence of the
    elements satisfying [P]: it is a sub-sequence, it holds exactly the
    members satisfying [P], and it contains every other such sub-sequence. *)
Lemma Array_filter_exact f (P : A -> Prop) l :
  (forall x, f x = true <-> P x) ->
  List.filter f l `sublist_of` l
  /\ (forall x, x ∈ List.filter f l <-> x ∈ l /\ P x)
  /\ (forall k, k `sublist_of` l -> Forall P k -> k `sublist_of` List.filter f l).
Proof.
  intros Hf. split; [apply Array_filter_sublist|]. split.
  - intros x. rewrite Array_filter_elem_of, Hf. reflexivity.
  - intros k Hk HP. apply Array_filter_greatest; [exact Hk|].
    eapply Forall_impl; [exact HP|]. intros x Hx. apply Hf, Hx.
Qed.

(** Those three properties single the filter's result out. *)
Lemma Array_filter_unique f (P : A -> Prop) l r :
  (forall x, f x = true <-> P x) ->
  r `sublist_of` l -> Forall P r ->
  (forall k, k `sublist_of` l -> Forall P k -> k `sublist_of` r) ->
  r = List.filter f l.
Proof.
  intros Hf Hr HP Hmax.
  destruct (Array_filter_exact f P l Hf) as (Hsub & Hmem & Hgreat).
  apply (anti_symm sublist).
  - apply Hgreat; assumption.
  - apply Hmax; [exact Hsub|]. apply Forall_forall.
    intros x Hx. apply Hmem in Hx. apply Hx.
Qed.

(** Three callbacks of which exactly one accepts each element split an
    array into three groups that together are a rearrangement of it. *)
Lemma Array_filter_three_way (f g h : A -> bool) l :
  (forall x, (f x, g x, h x) = (true, false, false)
             \/ (f x, g x, h x) = (false, true, false)
             \/ (f x, g x, h x) = (false, false, true)) ->
  List.filter f l ++ List.filter g l ++ List.filter h l ≡ₚ l.
Proof.
  intros Hone. induction l as [|x l IH]; simpl; [reflexivity|].
  destruct (Hone x) as [E|[E|E]]; injection E as -> -> ->; simpl.
  - constructor. exact IH.
  - rewrite <- Permutation_middle. constructor. exact IH.
  - rewrite app_assoc, <- Permutation_middle, <- app_assoc.
    constructor. exact IH.
Qed.

End ArrayFilter.

(** ** The literal tests decide the enumerated values *)

Lemma Severity_lit_inj s t : Severity_lit s = Severity_lit t -> s = t.
Proof. destruct s, t; simpl; congruence. Qed.

Lemma ViolationStatus_lit_inj s t :
  ViolationStatus_lit s = ViolationStatus_lit t -> s = t.
Proof. destruct s, t; simpl; congruence. Qed.

(** No severity and status share a literal, so the nine filter values are
    nine different strings. *)
Lemma FilterType_lit_inj f g : FilterType_lit f = FilterType_lit g -> f = g.
Proof.
  destruct f as [|[]|[]], g as [|[]|[]]; simpl; congruence.
Qed.

(** What each filter value accepts. *)
Lemma matchesFilter_spec activeFilter v :
  matchesFilter activeFilter v = true <->
  match activeFilter with
  | filter_all => True
  | filter_severity s => severity v = s
  | filter_status s => status v = s
  end.
Proof.
  unfold matchesFilter.
  destruct activeFilter as [|[]|[]], (severity v), (status v); simpl;
    split; (reflexivity || discriminate || trivial).
Qed.

Lemma isActive_spec v :
  isActive v = true <-> status v = open \/ status v = needs_review.
Proof.
  unfold isActive. destruct (status v); simpl; split;
    try reflexivity; try discriminate; auto.
  - intros [H|H]; discriminate H.
  - intros [H|H]; discriminate H.
Qed.

Lemma isCritical_spec v : isCritical v = true <-> severity v = critical.
Proof.
  unfold isCritical.
  destruct (severity v); simpl; split; (reflexivity || discriminate).
Qed.

Lemma isMedium_spec v : isMedium v = true <-> severity v = medium.
Proof.
  unfold isMedium.
  destruct (severity v); simpl; split; (reflexivity || discriminate).
Qed.

(** ** The Violations page's filter *)

(** Whatever the active filter, the page shows a sub-sequence of its input. *)
Lemma filteredViolations_sublist activeFilter (V : list Violation) :
  filteredViolations activeFilter V `sublist_of` V.
Proof. apply Array_filter_sublist. Qed.

(** C4: with [activeFilter = "critical"] the Violations page's filter returns
    exactly the sub-sequence of the records of severity critical, in the
    order of the input: the result is a sub-sequence of the input, a record
    is in it exactly when it is in the input with severity critical, and
    every sub-sequence of the input made of critical records is a
    sub-sequence of the result (none is left out, however often it occurs);
    and the result is the only list with these properties. *)
Theorem filteredViolations_critical_exact : forall V : list Violation,
  filteredViolations (filter_severity critical) V `sublist_of` V
  /\ (forall v, v ∈ filteredViolations (filter_severity critical) V
                <-> v ∈ V /\ severity v = critical)
  /\ (forall K, K `sublist_of` V ->
                Forall (fun v => severity v = critical) K ->
                K `sublist_of` filteredViolations (filter_severity critical) V)
  /\ (forall R, R `sublist_of` V ->
                Forall (fun v => severity v = critical) R ->
                (forall K, K `sublist_of` V ->
                           Forall (fun v => severity v = critical) K ->
                           K `sublist_of` R) ->
                R = filteredViolations (filter_severity critical) V).
Proof.
  intros V. unfold filteredViolations.
  assert (Hf : forall v, matchesFilter (filter_severity critical) v = true
                         <-> severity v = critical).
  { intros v. apply (matchesFilter_spec (filter_severity critical)). }
  destruct (Array_filter_exact _ _ V Hf) as (Hsub & Hmem & Hmax).
  split; [exact Hsub|]. split; [exact Hmem|]. split; [exact Hmax|].
  intros R HR Hcrit HRmax.
  exact (Array_filter_unique _ _ V R Hf HR Hcrit HRmax).
Qed.

(** C5: the filter "all" returns its input unchanged, every record in its
    original place; and for every filter value the result is a sub-sequence
    of the input, so the filter never reorders it. *)
Theorem filteredViolations_all_keeps_order : forall V : list Violation,
  filteredViolations filter_all V = V
  /\ (forall activeFilter, filteredViolations activeFilter V `sublist_of` V).
Proof.
  intros V. split.
  - apply Array_filter_id. intros v.
    apply (matchesFilter_spec filter_all). exact I.
  - intros activeFilter. apply filteredViolations_sublist.
Qed.

(** ** The dashboard's active violations *)

(** C9: the dashboard's "Active Violations" are exactly the sub-sequence of
    the records whose status is open or needs_review, in the order of the
    input (a sub-sequence holding exactly the active members, containing
    every other sub-sequence of active records, and the only such list),
    and it is what the page hands to its table; no resolved or dismissed
    record is in it. *)
Theorem activeViolations_exact : forall V : list Violation,
  activeViolations V `sublist_of` V
  /\ (forall v, v ∈ activeViolations V
                <-> v ∈ V /\ (status v = open \/ status v = needs_review))
  /\ (forall K, K `sublist_of` V ->
                Forall (fun v => status v = open \/ status v = needs_review) K ->
                K `sublist_of` activeViolations V)
  /\ (forall R, R `sublist_of` V ->
                Forall (fun v => status v = open \/ status v = needs_review) R ->
                (forall K, K `sublist_of` V ->
                           Forall (fun v => status v = open
                                            \/ status v = needs_review) K ->
                           K `sublist_of` R) ->
                R = activeViolations V)
  /\ (forall v, v ∈ activeViolations V ->
                status v <> resolved /\ status v <> dismissed)
  /\ (forall metrics, tableRows (Index metrics V) = activeViolations V).
Proof.
  intros V.
  destruct (Array_filter_exact isActive
              (fun v => status v = open \/ status v = needs_review) V
              isActive_spec) as (Hsub & Hmem & Hmax).
  split; [exact Hsub|]. split; [exact Hmem|]. split; [exact Hmax|].
  split; [|split].
  - intros R HR Hact HRmax.
    exact (Array_filter_unique _ _ V R isActive_spec HR Hact HRmax).
  - intros v Hv. apply Hmem in Hv as [_ [Hs|Hs]]; rewrite Hs; split; discriminate.
  - intros metrics. reflexivity.
Qed.

(** ** The Reports page's severity groups *)

(** The three callbacks of the Reports page: each record passes exactly one. *)
Lemma Reports_tests_exclusive (v : Violation) :
  let c := String.eqb (Severity_lit (severity v)) "critical" in
  let h := String.eqb (Severity_lit (severity v)) "high" in
  (c, h, negb c && negb h) = (true, false, false)
  \/ (c, h, negb c && negb h) = (false, true, false)
  \/ (c, h, negb c && negb h) = (false, false, true).
Proof. destruct (severity v); simpl; auto. Qed.

(** C10: the Reports page's three groups partition the violation list. Each
    group is a sub-sequence of the list (its order is kept) holding the
    records of its severities; every record of the list is in exactly one
    group; the groups put together are a rearrangement of the list; and
    their sizes add up to its length. *)
Theorem Reports_groups_partition : forall V : list Violation,
  (criticalViolations V `sublist_of` V
   /\ highViolations V `sublist_of` V
   /\ otherViolations V `sublist_of` V)
  /\ (forall v, v ∈ criticalViolations V <-> v ∈ V /\ severity v = critical)
  /\ (forall v, v ∈ highViolations V <-> v ∈ V /\ severity v = high)
  /\ (forall v, v ∈ otherViolations V
                <-> v ∈ V /\ severity v <> critical /\ severity v <> high)
  /\ (forall v, v ∈ V ->
        ((v ∈ criticalViolations V) /\ (v ∉ highViolations V)
         /\ (v ∉ otherViolations V))
        \/ ((v ∉ criticalViolations V) /\ (v ∈ highViolations V)
            /\ (v ∉ otherViolations V))
        \/ ((v ∉ criticalViolations V) /\ (v ∉ highViolations V)
            /\ (v ∈ otherViolations V)))
  /\ criticalViolations V ++ highViolations V ++ otherViolations V ≡ₚ V
  /\ length (criticalViolations V) + length (highViolations V)
     + length (otherViolations V) = length V.
Proof.
  intros V.
  assert (Hc : forall v, v ∈ criticalViolations V <-> v ∈ V /\ severity v = critical).
  { intros v. unfold criticalViolations. rewrite Array_filter_elem_of.
    destruct (severity v); simpl; intuition congruence. }
  assert (Hh : forall v, v ∈ highViolations V <-> v ∈ V /\ severity v = high).
  { intros v. unfold highViolations. rewrite Array_filter_elem_of.
    destruct (severity v); simpl; intuition congruence. }
  assert (Ho : forall v, v ∈ otherViolations V
                         <-> v ∈ V /\ severity v <> critical /\ severity v <> high).
  { intros v. unfold otherViolations. rewrite Array_filter_elem_of.
    destruct (severity v); simpl; intuition congruence. }
  assert (Hperm : criticalViolations V ++ highViolations V ++ otherViolations V ≡ₚ V).
  { apply Array_filter_three_way. intros v. apply Reports_tests_exclusive. }
  split; [|split; [exact Hc|split; [exact Hh|split; [exact Ho|split; [|split]]]]].
  - repeat split; apply Array_filter_sublist.
  - intros v Hv. rewrite !Hc, !Hh, !Ho.
    destruct (severity v); intuition congruence.
  - exact Hperm.
  - rewrite <- (Permutation_length Hperm), !length_app. lia.
Qed.

(** ** The pages on the fixture *)

Example filteredViolations_mock_critical :
  filteredViolations (filter_severity critical) mockViolations = [v_001; v_004].
Proof. reflexivity. Qed.

Example filteredViolations_mock_resolved :
  filteredViolations (filter_status resolved) mockViolations = [v_008].
Proof. reflexivity. Qed.

Example activeViolations_mock :
  activeViolations mockViolations
  = [v_001; v_002; v_003; v_004; v_005; v_006; v_007].
Proof. reflexivity. Qed.

Example Reports_groups_mock :
  criticalViolations mockViolations = [v_001; v_004]
  /\ highViolations mockViolations = [v_002; v_003; v_007]
  /\ otherViolations mockViolations = [v_005; v_006; v_008].
Proof. repeat split. Qed.

Example severityBadge_mock :
  map (fun s => severityBadge s mockViolations) [critical; high; medium; low]
  = [2; 3; 2; 1].
Proof. reflexivity. Qed.

(** ** The metrics record and the violation list *)

(** The dashboard's cards and widgets show the metrics record it is given,
    whatever the violation list is: nothing is recomputed from the list. *)
Lemma Index_shows_metrics (metrics : ComplianceMetrics) (V : list Violation) :
  totalCard (Index metrics V) = totalViolations metrics
  /\ criticalCard (Index metrics V) = criticalIssues metrics
  /\ moderateCard (Index metrics V) = moderateIssues metrics
  /\ missingCard (Index metrics V) = missingArtifacts metrics
  /\ riskWidget (Index metrics V) = riskLevel metrics.
Proof. repeat split. Qed.

(** The active records passing a test, by membership. *)
Lemma activeWhere_elem_of (p : Violation -> bool) (V : list Violation) v :
  v ∈ activeWhere p V
  <-> v ∈ V /\ p v = true /\ (status v = open \/ status v = needs_review).
Proof.
  unfold activeWhere. rewrite Array_filter_elem_of, andb_true_iff, isActive_spec.
  reflexivity.
Qed.

Lemma activeWhere_length (p : Violation -> bool) (V : list Violation) :
  length (activeWhere p V) <= length V.
Proof. apply sublist_length, Array_filter_sublist. Qed.

(** Counterexample to C1: the fixture has thirteen in [totalViolations] and
    eight records. *)
Lemma mockMetrics_total_not_cardinality :
  totalViolations mockMetrics <> length mockViolations.
Proof. simpl. discriminate. Qed.

(** C1, as the code has it: no metrics are derived from a violation list.
    The dashboard shows [mockMetrics] for every list, so the total it reports
    is 13 whatever the list, and it is the length of a list only when that
    list has 13 records; [mockViolations] has 8 records, which the recorded
    total bounds from above. *)
Theorem totalViolations_is_fixed :
  (forall V : list Violation, totalCard (Index mockMetrics V) = 13)
  /\ (forall V : list Violation,
        totalViolations mockMetrics = length V <-> length V = 13)
  /\ length mockViolations = 8
  /\ length mockViolations <= totalViolations mockMetrics.
Proof.
  split; [intros V; reflexivity|]. split.
  - intros V. simpl. split; intros H; symmetry; exact H.
  - split; [reflexivity|]. simpl. lia.
Qed.

(** Counterexample to C2: the fixture has three in [criticalIssues] and two
    active critical records. *)
Lemma mockMetrics_critical_not_count :
  criticalIssues mockMetrics <> length (activeWhere isCritical mockViolations).
Proof. vm_compute. discriminate. Qed.

(** C2, as the code has it: [criticalIssues] is the fixed 3 of [mockMetrics],
    shown for every list. In [mockViolations] the records of severity
    critical and status open or needs_review are v-001 and v-004, so their
    count is below the recorded number, which in turn is at most
    [totalViolations]; for every list the active critical records are the
    members with severity critical and an active status, and they are no
    more than the list has records. *)
Theorem criticalIssues_is_fixed :
  (forall V : list Violation, criticalCard (Index mockMetrics V) = 3)
  /\ activeWhere isCritical mockViolations = [v_001; v_004]
  /\ length (activeWhere isCritical mockViolations) <= criticalIssues mockMetrics
  /\ criticalIssues mockMetrics <= totalViolations mockMetrics
  /\ (forall (V : list Violation) v,
        v ∈ activeWhere isCritical V
        <-> v ∈ V /\ severity v = critical
            /\ (status v = open \/ status v = needs_review))
  /\ (forall V : list Violation, length (activeWhere isCritical V) <= length V).
Proof.
  split; [intros V; reflexivity|].
  split; [reflexivity|].
  split; [vm_compute; lia|].
  split; [simpl; lia|].
  split.
  - intros V v. rewrite activeWhere_elem_of, isCritical_spec. reflexivity.
  - intros V. apply activeWhere_length.
Qed.

(** Counterexample to C3: the fixture reports critical issues, its list has
    active critical records, and its risk level is neither high nor
    critical. *)
Lemma mockMetrics_risk_below_high :
  (exists v, v ∈ mockViolations /\ severity v = critical
             /\ (status v = open \/ status v = needs_review))
  /\ 0 < criticalIssues mockMetrics
  /\ ~ atLeastHigh (riskLevel mockMetrics).
Proof.
  split.
  - exists v_001. split; [apply list_elem_of_here|]. split; [reflexivity|].
    left. reflexivity.
  - split; [simpl; lia|]. intros [H|H]; discriminate H.
Qed.

(** C3, as the code has it: the risk level is the fixed "medium" of
    [mockMetrics]. The dashboard's risk widget shows it for every violation
    list, with or without active critical records, under the label
    "Medium Risk", and the report's summary names the same level; it stands
    beside a [criticalIssues] of 3 and the two active critical records of
    [mockViolations], and it is not at least high. *)
Theorem riskLevel_is_fixed :
  (forall V : list Violation, riskWidget (Index mockMetrics V) = risk_medium)
  /\ label (riskConfig (riskLevel mockMetrics)) = String.append summaryRisk " Risk"
  /\ criticalIssues mockMetrics = 3
  /\ activeWhere isCritical mockViolations = [v_001; v_004]
  /\ ~ atLeastHigh (riskWidget (Index mockMetrics mockViolations)).
Proof.
  split; [intros V; reflexivity|].
  split; [reflexivity|].
  split; [reflexivity|].
  split; [reflexivity|].
  intros [H|H]; discriminate H.
Qed.

(** Counterexample to C7: the fixture has eight in [moderateIssues] and two
    active medium records. *)
Lemma mockMetrics_moderate_not_count :
  moderateIssues mockMetrics <> length (activeWhere isMedium mockViolations).
Proof. vm_compute. discriminate. Qed.

(** C7, as the code has it: [moderateIssues] is the fixed 8 of [mockMetrics],
    shown for every list. In [mockViolations] the records of severity medium
    and status open or needs_review are v-005 and v-006, so their count is
    below the recorded number; for every list the active medium records are
    the members with severity medium and an active status. *)
Theorem moderateIssues_is_fixed :
  (forall V : list Violation, moderateCard (Index mockMetrics V) = 8)
  /\ activeWhere isMedium mockViolations = [v_005; v_006]
  /\ length (activeWhere isMedium mockViolations) <= moderateIssues mockMetrics
  /\ (forall (V : list Violation) v,
        v ∈ activeWhere isMedium V
        <-> v ∈ V /\ severity v = medium
            /\ (status v = open \/ status v = needs_review)).
Proof.
  split; [intros V; reflexivity|].
  split; [reflexivity|].
  split; [vm_compute; lia|].
  intros V v. rewrite activeWhere_elem_of, isMedium_spec. reflexivity.
Qed.

(** Counterexample to C8: the fixture has two in [missingArtifacts] and one
    active record of category "Documentation". *)
Lemma mockMetrics_missing_not_count :
  missingArtifacts mockMetrics
  <> length (activeWhere isDocumentation mockViolations).
Proof. vm_compute. discriminate. Qed.

(** C8, as the code has it: [missingArtifacts] is the fixed 2 of
    [mockMetrics], shown for every list. In [mockViolations] the only record
    whose category is exactly "Documentation" and whose status is open or
    needs_review is v-005, so the count is below the recorded number; for
    every list the active documentation records are the members with that
    exact category and an active status. *)
Theorem missingArtifacts_is_fixed :
  (forall V : list Violation, missingCard (Index mockMetrics V) = 2)
  /\ activeWhere isDocumentation mockViolations = [v_005]
  /\ length (activeWhere isDocumentation mockViolations)
     <= missingArtifacts mockMetrics
  /\ (forall (V : list Violation) v,
        v ∈ activeWhere isDocumentation V
        <-> v ∈ V /\ category v = "Documentation"%string
            /\ (status v = open \/ status v = needs_review)).
Proof.
  split; [intros V; reflexivity|].
  split; [reflexivity|].
  split; [vm_compute; lia|].
  intros V v. rewrite activeWhere_elem_of. unfold isDocumentation.
  rewrite String.eqb_eq. reflexivity.
Qed.

(** ** The review lifecycle *)

(** From a terminal status no pair is in the transition table. *)
Lemma legalTransition_terminal from target :
  from = resolved \/ from = dismissed -> legalTransition from target = false.
Proof. intros [->| ->]; destruct target; reflexivity. Qed.

(** The table is not empty: a legal change that is no dismissal goes
    through and writes the status, and nothing else. *)
Lemma transition_legal (v : Violation) target justification :
  legalTransition (status v) target = true -> target <> dismissed ->
  transition v target justification = (setStatus v target, None)
  /\ status (setStatus v target) = target.
Proof.
  intros Hlegal Hnot. unfold transition, checkTransition. rewrite Hlegal.
  destruct target; try contradiction; simpl; split; reflexivity.
Qed.

(** A dismissal without a reason is rejected as [MissingJustification]. *)
Lemma dismissal_needs_reason (v : Violation) :
  status v = open \/ status v = needs_review ->
  transition v dismissed None = (v, Some MissingJustification)
  /\ transition v dismissed (Some EmptyString) = (v, Some MissingJustification).
Proof.
  intros [H|H]; unfold transition, checkTransition; rewrite H; split; reflexivity.
Qed.

(** C6: a Violation whose status is resolved or dismissed admits no
    transition: whatever the target status and the justification, the
    attempt fails with [IllegalTransition] and the record, its status
    included, is as it was. *)
Theorem terminal_status_rejects_transition (v : Violation) :
  status v = resolved \/ status v = dismissed ->
  forall target justification,
    transition v target justification = (v, Some IllegalTransition)
    /\ status (fst (transition v target justification)) = status v.
Proof.
  intros Hterminal target justification.
  assert (E : transition v target justification = (v, Some IllegalTransition)).
  { unfold transition, checkTransition.
    rewrite (legalTransition_terminal _ target Hterminal). reflexivity. }
  rewrite E. split; reflexivity.
Qed.

Lemma terminal_status_rejects_transition_witness :
  (status v_008 = resolved \/ status v_008 = dismissed)
  /\ transition v_008 open (Some "fix reverted"%string)
     = (v_008, Some IllegalTransition).
Proof.
  split.
  - left. reflexivity.
  - apply (terminal_status_rejects_transition v_008). left. reflexivity.
Defined.

(** * Further properties *)

(** ** The Violations page: every filter value, the badges, the buttons *)

(** The result of the page's filter for each of the nine filter values:
    "all" keeps every record, a severity keeps the records of that
    severity, a status keeps the records of that status. Since no severity
    shares its literal with a status, a record never passes a severity
    filter through its status, nor a status filter through its severity. *)
Theorem filteredViolations_by_value :
  forall (activeFilter : FilterType) (V : list Violation),
  (forall v, v ∈ filteredViolations activeFilter V
             <-> v ∈ V /\ match activeFilter with
                          | filter_all => True
                          | filter_severity s => severity v = s
                          | filter_status s => status v = s
                          end)
  /\ (forall K, K `sublist_of` V ->
                Forall (fun v => match activeFilter with
                                 | filter_all => True
                                 | filter_severity s => severity v = s
                                 | filter_status s => status v = s
                                 end) K ->
                K `sublist_of` filteredViolations activeFilter V).
Proof.
  intros activeFilter V. unfold filteredViolations.
  destruct (Array_filter_exact (matchesFilter activeFilter) _ V
              (matchesFilter_spec activeFilter)) as (_ & Hmem & Hmax).
  split; assumption.
Qed.

(** A severity badge counts what the page lists under that severity. *)
Lemma severityBadge_filtered (s : Severity) (V : list Violation) :
  severityBadge s V = length (filteredViolations (filter_severity s) V).
Proof.
  unfold severityBadge, filteredViolations. f_equal.
  apply filter_ext. intros v. unfold matchesFilter.
  destruct s, (severity v), (status v); reflexivity.
Qed.

(** The four summary badges of the Violations page agree with the list the
    page shows under each severity, and they add up to the total the page
    prints beside them ("of N violations"). *)
Theorem severityBadges_add_up : forall V : list Violation,
  (forall s, severityBadge s V
             = length (filteredViolations (filter_severity s) V))
  /\ severityBadge critical V + severityBadge high V
     + severityBadge medium V + severityBadge low V = length V.
Proof.
  intros V. split; [intros s; apply severityBadge_filtered|].
  unfold severityBadge. induction V as [|v V IH]; [reflexivity|].
  simpl in *. destruct (severity v); simpl; lia.
Qed.

(** A filter keeps the length exactly when it keeps everything. *)
Lemma Array_filter_length_all {A : Type} (f : A -> bool) (l : list A) :
  length (List.filter f l) = length l <-> Forall (fun x => f x = true) l.
Proof.
  induction l as [|x l IH]; simpl.
  - split; [constructor | reflexivity].
  - pose proof (sublist_length _ _ (Array_filter_sublist f l)) as Hle.
    rewrite Forall_cons. destruct (f x) eqn:E; simpl.
    + split.
      * intros H. split; [reflexivity|]. apply IH. lia.
      * intros [_ H]. f_equal. apply IH, H.
    + split; [lia|]. intros [H _]. discriminate H.
Qed.

(** "Showing X of Y": the shown count never exceeds the total, and it
    reaches the total exactly when every record passes the filter. *)
Theorem filteredViolations_count :
  forall (activeFilter : FilterType) (V : list Violation),
  length (filteredViolations activeFilter V) <= length V
  /\ (length (filteredViolations activeFilter V) = length V
      <-> Forall (fun v => match activeFilter with
                           | filter_all => True
                           | filter_severity s => severity v = s
                           | filter_status s => status v = s
                           end) V).
Proof.
  intros activeFilter V. unfold filteredViolations. split.
  - apply sublist_length, Array_filter_sublist.
  - rewrite Array_filter_length_all. apply Forall_iff.
    intros v. apply matchesFilter_spec.
Qed.

(** What a status filter lists has that status. *)
Lemma filteredViolations_sublist_status (s : ViolationStatus) (V : list Violation) v :
  v ∈ filteredViolations (filter_status s) V -> status v = s.
Proof.
  unfold filteredViolations. rewrite Array_filter_elem_of.
  intros [_ H]. apply (matchesFilter_spec (filter_status s)) in H. exact H.
Qed.

(** The page offers no button for the status "dismissed": whichever status
    button is active, no dismissed record is listed. *)
Theorem status_buttons_hide_dismissed
    (V : list Violation) (activeFilter : FilterType) (label : string) (s : ViolationStatus) (v : Violation) :
  (activeFilter, label) ∈ filters ->
  activeFilter = filter_status s ->
  v ∈ filteredViolations activeFilter V ->
  status v <> dismissed.
Proof.
  intros Hbutton -> Hv.
  apply filteredViolations_sublist_status in Hv.
  rewrite Hv. clear Hv. unfold filters in Hbutton.
  repeat (apply elem_of_cons in Hbutton as [Hbutton|Hbutton];
          [simplify_eq; discriminate|]).
  apply elem_of_nil in Hbutton. contradiction.
Qed.

Lemma status_buttons_hide_dismissed_witness :
  (filter_status resolved, "Resolved"%string) ∈ filters
  /\ v_008 ∈ filteredViolations (filter_status resolved) mockViolations
  /\ status v_008 <> dismissed.
Proof.
  assert (Hb : (filter_status resolved, "Resolved"%string) ∈ filters).
  { unfold filters. do 7 apply list_elem_of_further. apply list_elem_of_here. }
  assert (Hv : v_008 ∈ filteredViolations (filter_status resolved) mockViolations).
  { apply list_elem_of_here. }
  split; [exact Hb|]. split; [exact Hv|].
  exact (status_buttons_hide_dismissed mockViolations (filter_status resolved)
           "Resolved"%string resolved v_008 Hb eq_refl Hv).
Defined.

(** ** The pages agree with each other *)

(** The Reports page's critical and high groups are the lists the Violations
    page shows under "Critical" and "High", and its third group holds
    exactly the medium and low records, as many as the two badges count. *)
Theorem Reports_groups_match_filters : forall V : list Violation,
  criticalViolations V = filteredViolations (filter_severity critical) V
  /\ highViolations V = filteredViolations (filter_severity high) V
  /\ (forall v, v ∈ otherViolations V
                <-> v ∈ V /\ (severity v = medium \/ severity v = low))
  /\ length (otherViolations V) = severityBadge medium V + severityBadge low V.
Proof.
  intros V. split; [|split; [|split]].
  - unfold criticalViolations, filteredViolations. apply filter_ext.
    intros v. unfold matchesFilter. destruct (severity v), (status v); reflexivity.
  - unfold highViolations, filteredViolations. apply filter_ext.
    intros v. unfold matchesFilter. destruct (severity v), (status v); reflexivity.
  - intros v. unfold otherViolations. rewrite Array_filter_elem_of.
    destruct (severity v); simpl; intuition discriminate.
  - unfold otherViolations, severityBadge.
    induction V as [|v V IH]; [reflexivity|].
    simpl in *. destruct (severity v); simpl; lia.
Qed.

(** Which of the four status filters, and the dashboard's test, a record
    passes: one filter, by its status. *)
Lemma status_tests (v : Violation) :
  (matchesFilter (filter_status open) v,
   matchesFilter (filter_status needs_review) v,
   matchesFilter (filter_status resolved) v,
   matchesFilter (filter_status dismissed) v,
   isActive v)
  = match status v with
    | open => (true, false, false, false, true)
    | needs_review => (false, true, false, false, true)
    | resolved => (false, false, true, false, false)
    | dismissed => (false, false, false, true, false)
    end.
Proof.
  unfold matchesFilter, isActive.
  destruct (severity v), (status v); reflexivity.
Qed.

(** The dashboard's "issues requiring attention" are the open and the
    needs_review records of the Violations page taken together, and with the
    resolved and the dismissed ones they make up the whole list. *)
Theorem attentionCount_by_status :
  forall (metrics : ComplianceMetrics) (V : list Violation),
  attentionCount (Index metrics V)
  = length (filteredViolations (filter_status open) V)
    + length (filteredViolations (filter_status needs_review) V)
  /\ attentionCount (Index metrics V)
     + length (filteredViolations (filter_status resolved) V)
     + length (filteredViolations (filter_status dismissed) V)
     = length V
  /\ (attentionCount (Index metrics V) = length V
      <-> Forall (fun v => status v <> resolved /\ status v <> dismissed) V).
Proof.
  intros metrics V. simpl. split; [|split].
  - unfold activeViolations, filteredViolations.
    induction V as [|v V IH]; [reflexivity|].
    pose proof (status_tests v) as E. simpl.
    destruct (status v); injection E as E1 E2 E3 E4 E5;
      rewrite ?E1, ?E2, ?E3, ?E4, ?E5; simpl; lia.
  - unfold activeViolations, filteredViolations.
    induction V as [|v V IH]; [reflexivity|].
    pose proof (status_tests v) as E. simpl.
    destruct (status v); injection E as E1 E2 E3 E4 E5;
      rewrite ?E1, ?E2, ?E3, ?E4, ?E5; simpl; lia.
  - unfold activeViolations. rewrite Array_filter_length_all.
    apply Forall_iff. intros v. rewrite isActive_spec.
    destruct (status v); split; intros H; try (split; discriminate); auto;
      try (destruct H as [H|H]; discriminate H);
      destruct H as [H1 H2]; congruence.
Qed.

(** ** The violations table *)

(** In a table whose records have pairwise different ids at most one row is
    expanded, whatever the state; and when the state is the id of a record
    of the table, exactly one is. *)
Theorem ViolationsTable_one_expanded
    (violations : list Violation) (expandedId : option string) :
  NoDup (map Compliance.id violations) ->
  length (List.filter ViolationsTable.isExpanded
            (ViolationsTable.rows expandedId violations)) <= 1
  /\ (forall v, v ∈ violations -> expandedId = Some (Compliance.id v) ->
        List.filter ViolationsTable.isExpanded
          (ViolationsTable.rows expandedId violations)
        = [ {| ViolationsTable.key := Compliance.id v;
               ViolationsTable.violation := v;
               ViolationsTable.isExpanded := true |} ]).
Proof.
  intros Hnodup.
  assert (Hnone : forall e l, e ∉ map Compliance.id l ->
            List.filter ViolationsTable.isExpanded
              (ViolationsTable.rows (Some e) l) = []).
  { intros e l. induction l as [|w l IH]; [reflexivity|].
    simpl. rewrite not_elem_of_cons. intros [Hne Hl].
    destruct (String.eqb_spec e (Compliance.id w)); [contradiction|].
    apply IH, Hl. }
  split.
  - destruct expandedId as [e|].
    + induction violations as [|w l IH]; simpl; [lia|].
      apply NoDup_cons in Hnodup as [Hw Hl].
      destruct (String.eqb_spec e (Compliance.id w)) as [->|Hne]; simpl.
      * rewrite (Hnone _ _ Hw). simpl. lia.
      * apply IH, Hl.
    + induction violations as [|w l IH]; simpl; [lia|].
      apply NoDup_cons in Hnodup as [_ Hl]. apply IH, Hl.
  - intros v Hv ->. induction violations as [|w l IH]; [inversion Hv|].
    apply NoDup_cons in Hnodup as [Hw Hl]. simpl.
    apply elem_of_cons in Hv as [->|Hv].
    + rewrite String.eqb_refl. simpl. rewrite (Hnone _ _ Hw). reflexivity.
    + destruct (String.eqb_spec (Compliance.id v) (Compliance.id w)) as [E|Hne].
      * exfalso. apply Hw. rewrite <- E. apply list_elem_of_fmap_2, Hv.
      * apply IH; assumption.
Qed.

Lemma ViolationsTable_one_expanded_witness :
  NoDup (map Compliance.id mockViolations)
  /\ length (List.filter ViolationsTable.isExpanded
               (ViolationsTable.rows (Some "v-004"%string) mockViolations)) <= 1.
Proof.
  assert (H : NoDup (map Compliance.id mockViolations)).
  { simpl. repeat (apply NoDup_cons_2;
      [rewrite ?not_elem_of_cons; repeat split; try discriminate;
       apply not_elem_of_nil|]).
    apply NoDup_nil_2. }
  split; [exact H|].
  apply (ViolationsTable_one_expanded mockViolations (Some "v-004"%string) H).
Defined.

(** Two records sharing an id are expanded together. *)
Example ViolationsTable_shared_id_both_expanded :
  map ViolationsTable.isExpanded
    (ViolationsTable.rows (Some "v-001"%string) [v_001; v_002; v_001])
  = [true; false; true].
Proof. reflexivity. Qed.

(** Clicking rows: the state after any clicks is [null] or the id clicked
    last, so from the initial state only clicked rows are ever expanded; a
    click on another row moves the expansion there, whatever was expanded
    before; and clicking one row n times from the collapsed table leaves it
    expanded exactly when n is odd. *)
Theorem handleToggle_clicks :
  (forall (clicks : list string) (e0 : option string) (id : string),
     fold_left ViolationsTable.handleToggle (clicks ++ [id]) e0 = None
     \/ fold_left ViolationsTable.handleToggle (clicks ++ [id]) e0 = Some id)
  /\ (forall (clicks : list string) (id : string),
        fold_left ViolationsTable.handleToggle clicks None = Some id ->
        id ∈ clicks)
  /\ (forall (e : option string) (id other : string),
        id <> other ->
        ViolationsTable.handleToggle
          (ViolationsTable.handleToggle e id) other = Some other)
  /\ (forall (id : string) (n : nat),
        fold_left ViolationsTable.handleToggle (repeat id n) None
        = if Nat.odd n then Some id else None).
Proof.
  assert (Hlast : forall clicks e0 id,
            fold_left ViolationsTable.handleToggle (clicks ++ [id]) e0 = None
            \/ fold_left ViolationsTable.handleToggle (clicks ++ [id]) e0
               = Some id).
  { intros clicks e0 id. rewrite fold_left_app. simpl.
    unfold ViolationsTable.handleToggle.
    destruct (ViolationsTable.isExpandedId _ id); auto. }
  split; [exact Hlast|]. split; [|split].
  - intros clicks id. destruct clicks as [|c clicks] using rev_ind.
    + discriminate.
    + intros H. destruct (Hlast clicks None c) as [E|E]; rewrite E in H.
      * discriminate.
      * injection H as <-. apply elem_of_app. right. apply list_elem_of_here.
  - intros e id other Hne. unfold ViolationsTable.handleToggle.
    destruct (ViolationsTable.isExpandedId e id); simpl.
    + reflexivity.
    + destruct (String.eqb_spec id other); [contradiction|reflexivity].
  - intros id n.
    assert (Hpair : forall k, fold_left ViolationsTable.handleToggle
                                (repeat id k) None
                              = (if Nat.odd k then Some id else None)
                              /\ fold_left ViolationsTable.handleToggle
                                   (repeat id k) (Some id)
                                 = (if Nat.odd k then None else Some id)).
    { induction k as [|k [IHn IHs]]; [split; reflexivity|].
      rewrite Nat.odd_succ, <- Nat.negb_odd. simpl.
      unfold ViolationsTable.handleToggle at 2 4. simpl.
      rewrite String.eqb_refl, IHn, IHs.
      destruct (Nat.odd k); split; reflexivity. }
    apply Hpair.
Qed.

(** ** The compliance score widget *)

Local Open Scope Q_scope.

(** The bands of the score colour: success from 90 up, warning from 70 up
    to 90, critical below 70; and the ring always has the colour of the
    figure ("stroke-" for "text-", the same palette entry). *)
Theorem getScoreColor_bands : forall score : Q,
  (ComplianceScore.getScoreColor score = "text-success"%string <-> 90 <= score)
  /\ (ComplianceScore.getScoreColor score = "text-warning"%string
      <-> 70 <= score /\ score < 90)
  /\ (ComplianceScore.getScoreColor score = "text-severity-critical"%string
      <-> score < 70)
  /\ String.append "stroke-"
       (String.substring 5 (String.length (ComplianceScore.getScoreColor score))
          (ComplianceScore.getScoreColor score))
     = ComplianceScore.getScoreRingColor score.
Proof.
  intros score.
  unfold ComplianceScore.getScoreColor, ComplianceScore.getScoreRingColor.
  destruct (Qle_bool 90 score) eqn:E90; [|destruct (Qle_bool 70 score) eqn:E70].
  - apply Qle_bool_iff in E90.
    repeat split; try discriminate; try assumption; try reflexivity;
      intros; lra.
  - apply Qle_bool_iff in E70.
    assert (~ 90 <= score) by (rewrite <- Qle_bool_iff; congruence).
    repeat split; try discriminate; try assumption; try reflexivity;
      intros; lra.
  - assert (~ 90 <= score) by (rewrite <- Qle_bool_iff; congruence).
    assert (~ 70 <= score) by (rewrite <- Qle_bool_iff; congruence).
    repeat split; try discriminate; try assumption; try reflexivity;
      intros; lra.
Qed.

(** The label and the colour of a score always go together: "Excellent" is
    shown in the success colour, "Good" and "Fair" in the warning colour,
    "Needs Attention" and "Critical" in the critical colour, and there is no
    other label. *)
Theorem getScoreLabel_matches_color : forall score : Q,
  (ComplianceScore.getScoreLabel score = "Excellent"%string
   /\ ComplianceScore.getScoreColor score = "text-success"%string
   /\ 90 <= score)
  \/ (ComplianceScore.getScoreLabel score = "Good"%string
      /\ ComplianceScore.getScoreColor score = "text-warning"%string
      /\ 80 <= score /\ score < 90)
  \/ (ComplianceScore.getScoreLabel score = "Fair"%string
      /\ ComplianceScore.getScoreColor score = "text-warning"%string
      /\ 70 <= score /\ score < 80)
  \/ (ComplianceScore.getScoreLabel score = "Needs Attention"%string
      /\ ComplianceScore.getScoreColor score = "text-severity-critical"%string
      /\ 60 <= score /\ score < 70)
  \/ (ComplianceScore.getScoreLabel score = "Critical"%string
      /\ ComplianceScore.getScoreColor score = "text-severity-critical"%string
      /\ score < 60).
Proof.
  intros score.
  unfold ComplianceScore.getScoreLabel, ComplianceScore.getScoreColor.
  destruct (Qle_bool 90 score) eqn:E90;
  destruct (Qle_bool 80 score) eqn:E80;
  destruct (Qle_bool 70 score) eqn:E70;
  destruct (Qle_bool 60 score) eqn:E60;
  repeat match goal with
         | H : Qle_bool _ _ = true |- _ => apply Qle_bool_iff in H
         | H : Qle_bool ?a ?b = false |- _ =>
             assert (~ a <= b) by (rewrite <- Qle_bool_iff; congruence);
             clear H
         end;
  try (exfalso; lra).
  - left. repeat split; try reflexivity; lra.
  - right. left. repeat split; try reflexivity; lra.
  - right. right. left. repeat split; try reflexivity; lra.
  - right. right. right. left. repeat split; try reflexivity; lra.
  - right. right. right. right. repeat split; try reflexivity; lra.
Qed.

(** The band of each label. *)
Lemma getScoreLabel_bands (score : Q) :
  (ComplianceScore.getScoreLabel score = "Excellent"%string /\ 90 <= score)
  \/ (ComplianceScore.getScoreLabel score = "Good"%string
      /\ 80 <= score /\ score < 90)
  \/ (ComplianceScore.getScoreLabel score = "Fair"%string
      /\ 70 <= score /\ score < 80)
  \/ (ComplianceScore.getScoreLabel score = "Needs Attention"%string
      /\ 60 <= score /\ score < 70)
  \/ (ComplianceScore.getScoreLabel score = "Critical"%string /\ score < 60).
Proof.
  unfold ComplianceScore.getScoreLabel.
  destruct (Qle_bool 90 score) eqn:E90;
  destruct (Qle_bool 80 score) eqn:E80;
  destruct (Qle_bool 70 score) eqn:E70;
  destruct (Qle_bool 60 score) eqn:E60;
  repeat match goal with
         | H : Qle_bool _ _ = true |- _ => apply Qle_bool_iff in H
         | H : Qle_bool ?a ?b = false |- _ =>
             assert (~ a <= b) by (rewrite <- Qle_bool_iff; congruence);
             clear H
         end;
  try (exfalso; lra).
  - left. split; [reflexivity | lra].
  - right. left. repeat split; try reflexivity; lra.
  - right. right. left. repeat split; try reflexivity; lra.
  - right. right. right. left. repeat split; try reflexivity; lra.
  - right. right. right. right. split; [reflexivity | lra].
Qed.

(** The place of a score's label among the five labels, worst first. *)
Lemma getScoreLabel_index (score : Q) :
  exists i : nat,
    ["Critical"; "Needs Attention"; "Fair"; "Good"; "Excellent"]%string !! i
    = Some (ComplianceScore.getScoreLabel score)
    /\ ((i = 4%nat /\ 90 <= score)
        \/ (i = 3%nat /\ 80 <= score /\ score < 90)
        \/ (i = 2%nat /\ 70 <= score /\ score < 80)
        \/ (i = 1%nat /\ 60 <= score /\ score < 70)
        \/ (i = 0%nat /\ score < 60)).
Proof.
  destruct (getScoreLabel_bands score) as [H|[H|[H|[H|H]]]];
    destruct H as (-> & H);
    [exists 4%nat | exists 3%nat | exists 2%nat | exists 1%nat | exists 0%nat];
    (split; [reflexivity|]); tauto.
Qed.

(** A higher score is never labelled worse: in the order "Critical",
    "Needs Attention", "Fair", "Good", "Excellent" the label of the higher
    of two scores stands at the same place as the label of the lower one or
    after it. *)
Theorem getScoreLabel_monotone (low_score high_score : Q) :
  low_score <= high_score ->
  exists i j : nat,
    (i <= j)%nat
    /\ ["Critical"; "Needs Attention"; "Fair"; "Good"; "Excellent"]%string !! i
       = Some (ComplianceScore.getScoreLabel low_score)
    /\ ["Critical"; "Needs Attention"; "Fair"; "Good"; "Excellent"]%string !! j
       = Some (ComplianceScore.getScoreLabel high_score).
Proof.
  intros Hle.
  destruct (getScoreLabel_index low_score) as (i & Hi & Bi).
  destruct (getScoreLabel_index high_score) as (j & Hj & Bj).
  exists i, j. split; [|split; assumption].
  destruct Bi as [B|[B|[B|[B|B]]]]; destruct B as (-> & B);
    destruct Bj as [C|[C|[C|[C|C]]]]; destruct C as (-> & C);
    first [lia | exfalso; lra].
Qed.

Lemma getScoreLabel_monotone_witness :
  78 <= 93
  /\ exists i j : nat,
       (i <= j)%nat
       /\ ["Critical"; "Needs Attention"; "Fair"; "Good"; "Excellent"]%string !! i
          = Some (ComplianceScore.getScoreLabel 78)
       /\ ["Critical"; "Needs Attention"; "Fair"; "Good"; "Excellent"]%string !! j
          = Some (ComplianceScore.getScoreLabel 93).
Proof.
  assert (H : 78 <= 93) by (unfold Qle; simpl; lia).
  split; [exact H|]. exact (getScoreLabel_monotone 78 93 H).
Defined.

(** The dashboard's score, 78, is shown as "Fair" in the warning colour. *)
Example ComplianceScore_mock :
  ComplianceScore.getScoreLabel
    (inject_Z (Z.of_nat (scoreWidget (Index mockMetrics mockViolations))))
  = "Fair"%string
  /\ ComplianceScore.getScoreColor
       (inject_Z (Z.of_nat (scoreWidget (Index mockMetrics mockViolations))))
     = "text-warning"%string.
Proof. split; reflexivity. Qed.

Local Close Scope Q_scope.

(** ** The sidebar *)

(** Among entries with pairwise different keys at most one has a given key. *)
Lemma at_most_one_by_key {A : Type} (key : A -> string) (k : string) (l : list A) :
  NoDup (map key l) ->
  length (List.filter (fun x => String.eqb k (key x)) l) <= 1
  /\ (k ∈ map key l ->
      length (List.filter (fun x => String.eqb k (key x)) l) = 1).
Proof.
  induction l as [|x l IH]; simpl; intros Hnodup.
  - split; [lia|]. intros H. inversion H.
  - apply NoDup_cons in Hnodup as [Hx Hl]. destruct (IH Hl) as [IH1 IH2].
    destruct (String.eqb_spec k (key x)) as [->|Hne]; simpl.
    + assert (E : List.filter (fun y => String.eqb (key x) (key y)) l = []).
      { clear -Hx. induction l as [|y l IHl]; [reflexivity|]. simpl in *.
        apply not_elem_of_cons in Hx as [Hxy Hx].
        destruct (String.eqb_spec (key x) (key y)); [contradiction|].
        apply IHl, Hx. }
      rewrite E. simpl. split; [lia|reflexivity].
    + split; [exact IH1|]. intros H. apply elem_of_cons in H as [H|H];
        [contradiction|]. apply IH2, H.
Qed.

(** Whatever the path of the page, the sidebar highlights at most one of
    its entries, and exactly one when the path is the target of an entry. *)
Theorem Sidebar_one_active : forall pathname : string,
  length (List.filter (Sidebar.isActive pathname) Sidebar.navigation) <= 1
  /\ (length (List.filter (Sidebar.isActive pathname) Sidebar.navigation) = 1
      <-> pathname ∈ map Sidebar.href Sidebar.navigation).
Proof.
  intros pathname.
  assert (Hnodup : NoDup (map Sidebar.href Sidebar.navigation)).
  { simpl. repeat (apply NoDup_cons_2;
      [rewrite ?not_elem_of_cons; repeat split; try discriminate;
       apply not_elem_of_nil|]).
    apply NoDup_nil_2. }
  destruct (at_most_one_by_key Sidebar.href pathname Sidebar.navigation Hnodup)
    as [Hle Hone].
  split; [exact Hle|]. split; [|exact Hone].
  intros H.
  destruct (List.filter (Sidebar.isActive pathname) Sidebar.navigation)
    as [|item rest] eqn:E; [discriminate H|].
  assert (Hitem : item ∈ List.filter (Sidebar.isActive pathname) Sidebar.navigation).
  { rewrite E. apply list_elem_of_here. }
  apply Array_filter_elem_of in Hitem as [Hin Hact].
  unfold Sidebar.isActive in Hact. apply String.eqb_eq in Hact. rewrite Hact.
  apply list_elem_of_fmap_2, Hin.
Qed.

(** ** The audit popup *)

(** A submit is accepted exactly when a file is chosen and a type is
    selected. A rejected submit changes nothing: the dialog stays as it is
    and the choices are kept; the missing file is reported before the
    missing type. An accepted submit names the file and the type in its
    toast, clears the form and closes the dialog. *)
Theorem handleSubmit_outcomes : forall s : AuditPopup.PopupState,
  ((exists title description,
      snd (AuditPopup.handleSubmit s) = AuditPopup.toast_success title description)
   <-> AuditPopup.selectedFile s <> None /\ AuditPopup.fileType s <> ""%string)
  /\ (forall title description,
        snd (AuditPopup.handleSubmit s) = AuditPopup.toast_error title description ->
        fst (AuditPopup.handleSubmit s) = s)
  /\ (AuditPopup.selectedFile s = None ->
      snd (AuditPopup.handleSubmit s)
      = AuditPopup.toast_error "No file selected"
          "Please upload a file before submitting.")
  /\ (forall file, AuditPopup.selectedFile s = Some file ->
        AuditPopup.fileType s <> ""%string ->
        AuditPopup.handleSubmit s
        = (AuditPopup.initialState,
           AuditPopup.toast_success "Submitted successfully!"
             (String.append "File: "
                (String.append (AuditPopup.name file)
                   (String.append ", Type: " (AuditPopup.fileType s)))))).
Proof.
  intros s. unfold AuditPopup.handleSubmit.
  destruct (AuditPopup.selectedFile s) as [file|] eqn:Efile;
    [destruct (String.eqb_spec (AuditPopup.fileType s) "") as [Etype|Etype]|];
    simpl.
  - split; [|split; [|split]].
    + split; [intros (t & d & H); discriminate H | intros [_ H]; contradiction].
    + reflexivity.
    + discriminate.
    + intros f _ H. contradiction.
  - split; [|split; [|split]].
    + split; [intros _; split; [discriminate|exact Etype] | eauto].
    + intros t d H. discriminate H.
    + discriminate.
    + intros f [= <-] _. reflexivity.
  - split; [|split; [|split]].
    + split; [intros (t & d & H); discriminate H | intros [H _]; contradiction].
    + reflexivity.
    + reflexivity.
    + intros f H. discriminate H.
Qed.

(** Closing the dialog, by a submit that went through or by dismissing it,
    leaves a blank form; and a file dialog closed without a choice keeps
    the file chosen before. *)
Lemma AuditPopup_step_invariant (s : AuditPopup.PopupState) (e : AuditPopup.Event) :
  (AuditPopup.dialogOpen s = false ->
   AuditPopup.selectedFile s = None /\ AuditPopup.fileType s = ""%string) ->
  match e with
  | AuditPopup.FileChange _ | AuditPopup.TypeChange _ =>
      AuditPopup.dialogOpen s = true
  | _ => True
  end ->
  AuditPopup.dialogOpen (AuditPopup.step s e) = false ->
  AuditPopup.selectedFile (AuditPopup.step s e) = None
  /\ AuditPopup.fileType (AuditPopup.step s e) = ""%string.
Proof.
  intros Hinv Hopen. destruct e as [files|value| |isOpen]; simpl.
  - unfold AuditPopup.handleFileChange.
    destruct files as [[|file files]|]; simpl; intros H; congruence.
  - intros H. congruence.
  - unfold AuditPopup.handleSubmit.
    destruct (AuditPopup.selectedFile s) eqn:Efile;
      [destruct (String.eqb_spec (AuditPopup.fileType s) "")|]; simpl;
      intros H; try (split; reflexivity).
    + destruct (Hinv H). congruence.
    + destruct (Hinv H) as [_ Htype]. split; [exact Efile | exact Htype].
  - unfold AuditPopup.handleOpenChange. destruct isOpen; simpl; intros H.
    + discriminate H.
    + split; reflexivity.
Qed.

(** From the initial state, in every run in which the file input and the
    type select are used only while the dialog is open, a closed dialog has
    no file chosen and no type selected: reopening always shows a blank
    form. *)
Theorem AuditPopup_closed_is_blank (events : list AuditPopup.Event) :
  AuditPopup.inputsWhileOpen AuditPopup.initialState events ->
  AuditPopup.dialogOpen (fold_left AuditPopup.step events AuditPopup.initialState)
  = false ->
  fold_left AuditPopup.step events AuditPopup.initialState
  = AuditPopup.initialState.
Proof.
  assert (Hgen : forall s,
            (AuditPopup.dialogOpen s = false ->
             AuditPopup.selectedFile s = None
             /\ AuditPopup.fileType s = ""%string) ->
            AuditPopup.inputsWhileOpen s events ->
            AuditPopup.dialogOpen (fold_left AuditPopup.step events s) = false ->
            AuditPopup.selectedFile (fold_left AuditPopup.step events s) = None
            /\ AuditPopup.fileType (fold_left AuditPopup.step events s)
               = ""%string).
  { induction events as [|e events IH]; intros s Hinv Hrun; simpl.
    - exact Hinv.
    - destruct Hrun as [He Hrest]. apply IH; [|exact Hrest].
      apply AuditPopup_step_invariant; assumption. }
  intros Hrun Hclosed.
  destruct (Hgen AuditPopup.initialState (fun _ => conj eq_refl eq_refl)
              Hrun Hclosed) as [Hfile Htype].
  destruct (fold_left AuditPopup.step events AuditPopup.initialState)
    as [o f t]. simpl in *. subst. reflexivity.
Qed.

Lemma AuditPopup_closed_is_blank_witness :
  fold_left AuditPopup.step
    [AuditPopup.OpenChange true;
     AuditPopup.FileChange (Some [ {| AuditPopup.name := "policy.pdf" |} ]);
     AuditPopup.TypeChange "PDF";
     AuditPopup.FileChange None;
     AuditPopup.Submit]
    AuditPopup.initialState
  = AuditPopup.initialState.
Proof.
  apply AuditPopup_closed_is_blank.
  - simpl. repeat split; reflexivity.
  - reflexivity.
Defined.


(** ** The Reports page's sections *)

(** The members of the three groups of the Reports page. *)
Lemma Reports_groups_partition_facts (V : list Violation) :
  (forall v, v ∈ criticalViolations V <-> v ∈ V /\ severity v = critical)
  /\ (forall v, v ∈ highViolations V <-> v ∈ V /\ severity v = high)
  /\ (forall v, v ∈ otherViolations V
                <-> v ∈ V /\ (severity v = medium \/ severity v = low)).
Proof.
  split; [|split]; intros v.
  - unfold criticalViolations. rewrite Array_filter_elem_of.
    destruct (severity v); simpl; intuition congruence.
  - unfold highViolations. rewrite Array_filter_elem_of.
    destruct (severity v); simpl; intuition congruence.
  - unfold otherViolations. rewrite Array_filter_elem_of.
    destruct (severity v); simpl; intuition congruence.
Qed.

(** A findings section is rendered exactly when the list has a record of
    its severities; for an empty list the report has no findings section,
    and only then. *)
Theorem Reports_sections_shown : forall V : list Violation,
  (ReportsSections.showCritical V = true
   <-> exists v, v ∈ V /\ severity v = critical)
  /\ (ReportsSections.showHigh V = true
      <-> exists v, v ∈ V /\ severity v = high)
  /\ (ReportsSections.showOther V = true
      <-> exists v, v ∈ V /\ (severity v = medium \/ severity v = low))
  /\ ((ReportsSections.showCritical V = false
       /\ ReportsSections.showHigh V = false
       /\ ReportsSections.showOther V = false) <-> V = []).
Proof.
  intros V.
  assert (Hshown : forall l : list Violation,
            (0 <? length l) = true <-> exists v, v ∈ l).
  { intros [|v l]; simpl.
    - split; [discriminate | intros [v Hv]; inversion Hv].
    - split; [intros _; exists v; apply list_elem_of_here | reflexivity]. }
  destruct (Reports_groups_partition_facts V) as (Hc & Hh & Ho).
  unfold ReportsSections.showCritical, ReportsSections.showHigh,
    ReportsSections.showOther.
  split; [|split; [|split]].
  - rewrite Hshown. split; intros [v Hv]; exists v; apply Hc, Hv.
  - rewrite Hshown. split; intros [v Hv]; exists v; apply Hh, Hv.
  - rewrite Hshown. split; intros [v Hv]; exists v; apply Ho, Hv.
  - split.
    + intros (Ec & Eh & Eo). destruct V as [|v V]; [reflexivity|]. exfalso.
      assert (Hv : v ∈ v :: V) by apply list_elem_of_here.
      destruct (severity v) eqn:Es.
      * apply not_true_iff_false in Ec. apply Ec, Hshown.
        exists v. apply Hc. split; assumption.
      * apply not_true_iff_false in Eh. apply Eh, Hshown.
        exists v. apply Hh. split; assumption.
      * apply not_true_iff_false in Eo. apply Eo, Hshown.
        exists v. apply Ho. split; [assumption|]. left. exact Es.
      * apply not_true_iff_false in Eo. apply Eo, Hshown.
        exists v. apply Ho. split; [assumption|]. right. exact Es.
    + intros ->. repeat split.
Qed.

(** ** The landing page's initials *)

Local Open Scope string_scope.

Lemma split_space_cons (c : ascii) (s : string) :
  c <> " "%char ->
  exists piece pieces,
    Landing.split_space s = piece :: pieces
    /\ Landing.split_space (String c s) = String c piece :: pieces.
Proof.
  intros Hc. simpl. destruct (Ascii.eqb_spec c " "); [contradiction|].
  destruct (Landing.split_space s) as [|piece pieces] eqn:E.
  - exfalso. destruct s as [|d s]; simpl in E; [discriminate|].
    destruct (Ascii.eqb d " "); [discriminate|].
    destruct (Landing.split_space s); discriminate.
  - exists piece, pieces. split; reflexivity.
Qed.

(** Splitting at the spaces loses nothing: joining the pieces with spaces
    gives the string back. *)
Lemma split_space_join (s : string) :
  String.concat " " (Landing.split_space s) = s.
Proof.
  induction s as [|c s IH]; [reflexivity|].
  destruct (Ascii.eqb_spec c " ") as [->|Hc].
  - simpl. destruct (Landing.split_space s) as [|piece pieces] eqn:E.
    + destruct (split_space_cons "a" s) as (p & ps & E' & _); [discriminate|].
      congruence.
    + simpl in *. rewrite IH. reflexivity.
  - destruct (split_space_cons c s Hc) as (piece & pieces & E & ->).
    rewrite E in IH. destruct pieces; simpl in *; rewrite IH; reflexivity.
Qed.

Lemma split_space_app (a b : string) :
  Landing.split_space (a ++ " " ++ b)
  = (Landing.split_space a ++ Landing.split_space b)%list.
Proof.
  induction a as [|c a IH].
  - reflexivity.
  - destruct (Ascii.eqb_spec c " ") as [->|Hc].
    + simpl in *. rewrite IH. reflexivity.
    + destruct (split_space_cons c a Hc) as (piece & pieces & E & ->).
      change (String c a ++ " " ++ b) with (String c (a ++ " " ++ b)).
      destruct (split_space_cons c (a ++ " " ++ b) Hc)
        as (piece' & pieces' & E' & ->).
      rewrite IH, E in E'. simpl in E'. injection E' as <- <-. reflexivity.
Qed.

Lemma string_append_empty_r (s : string) : s ++ "" = s.
Proof. induction s as [|c s IH]; simpl; [|rewrite IH]; reflexivity. Qed.

Lemma string_append_assoc (s t u : string) : (s ++ t) ++ u = s ++ t ++ u.
Proof. induction s as [|c s IH]; simpl; [|rewrite IH]; reflexivity. Qed.

Lemma concat_empty_app (l k : list string) :
  String.concat "" (l ++ k)%list = String.concat "" l ++ String.concat "" k.
Proof.
  induction l as [|x l IH]; [reflexivity|].
  destruct l as [|y l].
  - simpl. destruct k; simpl; [rewrite string_append_empty_r|]; reflexivity.
  - change (String.concat "" ((x :: y :: l) ++ k)%list)
      with (x ++ "" ++ String.concat "" ((y :: l) ++ k)%list).
    rewrite IH. simpl. rewrite string_append_assoc. reflexivity.
Qed.

(** The initials of a name: nothing for the empty name, the first character
    for a single word, and for two parts joined by a space the initials of
    the one followed by the initials of the other; so every word gives its
    first character, in order, and runs of spaces give nothing. *)
Theorem initials_by_words :
  Landing.initials "" = ""
  /\ (forall (c : ascii) (word : string),
        c <> " "%char ->
        ~ In " "%char (list_ascii_of_string word) ->
        Landing.initials (String c word) = String c "")
  /\ (forall a b : string,
        Landing.initials (a ++ " " ++ b)
        = Landing.initials a ++ Landing.initials b).
Proof.
  split; [reflexivity|]. split.
  - intros c word Hc Hword. unfold Landing.initials.
    assert (E : Landing.split_space word = [word]).
    { induction word as [|d word IH]; [reflexivity|].
      simpl in Hword.
      destruct (split_space_cons d word) as (p & ps & E1 & E2).
      - intros ->. apply Hword. left. reflexivity.
      - rewrite E2. rewrite IH in E1 by tauto. injection E1 as <- <-.
        reflexivity. }
    destruct (split_space_cons c word Hc) as (p & ps & E1 & ->).
    rewrite E in E1. injection E1 as <- <-. reflexivity.
  - intros a b. unfold Landing.initials.
    rewrite split_space_app, map_app. apply concat_empty_app.
Qed.

(** The three testimonials show "SC", "MT" and "EW". *)
Example initials_testimonials :
  map Landing.initials Landing.testimonialAuthors = ["SC"; "MT"; "EW"].
Proof. reflexivity. Qed.

(** Leading, trailing and doubled spaces add nothing. *)
Example initials_spaces : Landing.initials " Ada  Lovelace " = "AL".
Proof. reflexivity. Qed.

Local Close Scope string_scope.
